(** * Pain-signal scoring and deduplication pipeline

    A shallow embedding of the scoring core of the outreach agent
    ([src/scoring/edp_scorer.py], [src/main.py]), of the breach
    deduplicator and its sink delivery ([src/collectors/breach_collector.py],
    [src/clay_client.py]) and of the two domain extractors
    ([src/api/enriched_company_api.py], [src/clay_client.py]), followed by
    the properties of the specification that concern them.

    Conventions of the embedding.
    - Python floats are embedded as exact rationals [Q]; every literal of
      the source is a short decimal, so [0.35] below is 35/100.  Equality
      of scores is [Qeq] ([==]).
    - Python strings are [string]; [in], [str.replace], [str.rstrip],
      [str.split] and [str.lower] are the functions of [PyStr].
    - A dictionary read with [d.get(k, default)] is a record of optional
      fields, or a [gmap] where the keys are open.
    - Sets of hashes are [gset string].
    - [Binary64] repeats the weighted sum on binary64 floats, to compare
      the rational embedding with the machine arithmetic at given inputs. *)

From Stdlib Require Import ZArith QArith Lqa String Ascii List Bool Lia PrimFloat Sorted.
From stdpp Require Import gmap strings.
Import ListNotations.

Open Scope string_scope.

(** ** Python string operations *)

Module PyStr.

(** [sub in s] *)
Fixpoint contains (sub s : string) : bool :=
  String.prefix sub s ||
  match s with
  | EmptyString => false
  | String _ s' => contains sub s'
  end.

(** [s.replace(old, new)] for a non-empty [old]: occurrences are found
    from the left and do not overlap.  [skip] counts the characters of an
    occurrence that are still to be dropped. *)
Fixpoint replace_from (old new s : string) (skip : nat) : string :=
  match s with
  | EmptyString => EmptyString
  | String c s' =>
      match skip with
      | S k => replace_from old new s' k
      | O =>
          if String.prefix old s
          then new +:+ replace_from old new s' (String.length old - 1)
          else String c (replace_from old new s' 0)
      end
  end.

Definition replace (old new s : string) : string := replace_from old new s 0.

(** [s.rstrip(c)] for a one-character argument *)
Fixpoint rstrip (c : ascii) (s : string) : string :=
  match s with
  | EmptyString => EmptyString
  | String a s' =>
      match rstrip c s' with
      | EmptyString => if Ascii.eqb a c then EmptyString else String a EmptyString
      | r => String a r
      end
  end.

(** [s.endswith(c)] for a one-character argument *)
Fixpoint ends_with (c : ascii) (s : string) : bool :=
  match s with
  | EmptyString => false
  | String a EmptyString => Ascii.eqb a c
  | String _ s' => ends_with c s'
  end.

(** [s.split(c)[0]]: everything before the first [c] *)
Fixpoint split_head (c : ascii) (s : string) : string :=
  match s with
  | EmptyString => EmptyString
  | String a s' => if Ascii.eqb a c then EmptyString else String a (split_head c s')
  end.

(** [s.lower()] on ASCII letters *)
Definition lower_ascii (a : ascii) : ascii :=
  let n := nat_of_ascii a in
  if (65 <=? n)%nat && (n <=? 90)%nat then ascii_of_nat (n + 32) else a.

Fixpoint lower (s : string) : string :=
  match s with
  | EmptyString => EmptyString
  | String a s' => String (lower_ascii a) (lower s')
  end.

End PyStr.

(** ** Python's two-argument [min] and [max] on floats, and [max] with a key *)

Local Open Scope Q_scope.

Definition Qlt_bool (x y : Q) : bool := negb (Qle_bool y x).

(** [min(a, b)]: [b] only when [b < a] *)
Definition pymin (a b : Q) : Q := if Qlt_bool b a then b else a.

(** [max(a, b)]: [b] only when [b > a] *)
Definition pymax (a b : Q) : Q := if Qlt_bool a b then b else a.

(** [max(x :: xs, key=key)]: the first element whose key is maximal *)
Definition py_max_by {A : Type} (key : A -> Z) (x : A) (xs : list A) : A :=
  fold_left (fun best y => if (key best <? key y)%Z then y else best) xs x.

(** ** The EDP scorer, [src/scoring/edp_scorer.py] *)

Module Scorer.

(** A row of the [pain_signals] table (spec, Signal Record).
    [signal_type] is read with [s.get('signal_type', '')], so a missing
    key is the empty string.  [signal_date] is a timestamp: the instant,
    in microseconds, that the record's ISO-8601 string denotes; on such
    strings the order Python's [max] uses on the strings is the order of
    the instants.  A row whose date is missing or does not parse is not a
    Signal Record: on it [datetime.fromisoformat] raises, and the scoring
    pass of the company ends in its exception handler.  [raw_data] keeps
    the numeric entries of the payload; a missing payload is the empty
    map. *)
Record Signal := {
  domain : string;
  signal_type : string;
  signal_date : Z;
  signal_strength : Q;
  raw_data : gmap string Z;
  source : string
}.

(** A row of the [company_universe] table, with the two entries the scorer
    reads; either may be absent. *)
Record Company := {
  company_domain : string;
  industry : option string;
  employee_count : option Z
}.

(** The dictionary returned by [get_tech_stack] *)
Record TechStack := {
  has_mdr : bool;
  has_siem : bool;
  has_edr : bool;
  has_mssp : bool
}.

(** The [scores] dictionary; its keys in insertion order are the fields in
    this order. *)
Record Scores := {
  dwell_time : Q;
  skills_gap : Q;
  after_hours : Q;
  insurance : Q;
  breach_cost : Q
}.

(** The dictionary returned by [calculate_company_score] *)
Record ScoreData := {
  sd_domain : string;
  pain_score : Q;
  individual_scores : Scores;
  primary_edp : string;
  segment : string;
  recommendation : string;
  timestamp : Z
}.

(** The datastore behind [clay_client.query_table(table, {'domain': d})],
    for the two tables the scorer reads. *)
Record ClayTables := {
  query_pain_signals : string -> list Signal;
  query_company_universe : string -> list Company
}.

(** [self.weights] *)
Definition weights : Scores := {|
  dwell_time := 0.35;
  skills_gap := 0.25;
  after_hours := 0.15;
  insurance := 0.15;
  breach_cost := 0.10
|}.

Definition usec_per_day : Z := 86400000000.

Section WithDatastore.

Variable clay_client : ClayTables.
(** [datetime.now()], in microseconds *)
Variable now : Z.

(** [(datetime.now() - datetime.fromisoformat(s['signal_date'])).days];
    [timedelta.days] rounds towards minus infinity, as [Z.div] does. *)
Definition days_since (s : Signal) : Z := ((now - signal_date s) / usec_per_day)%Z.

(** [companies[0] if companies else {}]; [None] is the empty dictionary. *)
Definition get_company_info (d : string) : option Company :=
  match query_company_universe clay_client d with
  | c :: _ => Some c
  | [] => None
  end.

(** [company.get(key)] on the result of [get_company_info] *)
Definition company_get {A : Type} (key : Company -> option A) (company : option Company) : option A :=
  match company with
  | Some c => key c
  | None => None
  end.

Definition get_tech_stack (d : string) : TechStack := {|
  has_mdr := false;
  has_siem := false;
  has_edr := false;
  has_mssp := false
|}.

Definition is_breach (s : Signal) : bool := PyStr.contains "breach" (signal_type s).
Definition is_vacancy (s : Signal) : bool := PyStr.contains "vacancy" (signal_type s).
Definition is_compliance (s : Signal) : bool := PyStr.contains "compliance" (signal_type s).

(** [x in [a, b, ...]] for an optional string *)
Definition in_strings (x : option string) (l : list string) : bool :=
  match x with
  | Some i => existsb (String.eqb i) l
  | None => false
  end.

Definition calculate_dwell_score (d : string) (signals : list Signal) : Q :=
  let score := 0 in
  let breach_signals := List.filter is_breach signals in
  let score :=
    match breach_signals with
    | [] => score
    | s0 :: rest =>
        let most_recent := py_max_by signal_date s0 rest in
        let days := days_since most_recent in
        if (days <? 30)%Z then score + 0.9
        else if (days <? 90)%Z then score + 0.7
        else if (days <? 180)%Z then score + 0.5
        else score + 0.3
    end in
  let tech_stack := get_tech_stack d in
  let score := if negb (has_mdr tech_stack) then score + 0.3 else score in
  let score := if negb (has_siem tech_stack) then score + 0.2 else score in
  let score := if negb (has_edr tech_stack) then score + 0.2 else score in
  let vacancy_signals := List.filter is_vacancy signals in
  let score := match vacancy_signals with [] => score | _ :: _ => score + 0.2 end in
  pymin score 1.0.

(** One iteration of the loop over the vacancy signals *)
Definition skills_gap_step (score : Q) (vacancy : Signal) : Q :=
  let days_open := default 0%Z (raw_data vacancy !! "days_open") in
  let score :=
    if (90 <? days_open)%Z then score + 0.4
    else if (60 <? days_open)%Z then score + 0.3
    else if (30 <? days_open)%Z then score + 0.2
    else score in
  if PyStr.contains "executive" (signal_type vacancy) then score + 0.2 else score.

Definition calculate_skills_gap_score (d : string) (signals : list Signal) : Q :=
  let vacancy_signals := List.filter is_vacancy signals in
  pymin (fold_left skills_gap_step vacancy_signals 0) 1.0.

Definition calculate_after_hours_score (d : string) (signals : list Signal) : Q :=
  let score := 0.5 in
  let tech_stack := get_tech_stack d in
  let score := if has_mdr tech_stack then score - 0.4 else score in
  let score := if has_mssp tech_stack then score - 0.3 else score in
  let company := get_company_info d in
  let score :=
    if in_strings (company_get industry company)
         ["healthcare"; "finance"; "critical_infrastructure"]
    then score + 0.2 else score in
  pymax (pymin score 1.0) 0.0.

Definition calculate_insurance_score (d : string) (signals : list Signal) : Q :=
  let score := 0 in
  let breach_signals := List.filter is_breach signals in
  let score := match breach_signals with [] => score | _ :: _ => score + 0.4 end in
  let company := get_company_info d in
  let score :=
    if in_strings (company_get industry company) ["healthcare"; "finance"]
    then score + 0.3 else score in
  let compliance_signals := List.filter is_compliance signals in
  let score := match compliance_signals with [] => score | _ :: _ => score + 0.3 end in
  pymin score 1.0.

(** [industry_multipliers.get(key, 1.0)] *)
Definition industry_multipliers_get (key : string) : Q :=
  if String.eqb key "healthcare" then 1.5
  else if String.eqb key "finance" then 1.3
  else if String.eqb key "retail" then 1.2
  else if String.eqb key "manufacturing" then 1.1
  else if String.eqb key "technology" then 1.1
  else 1.0.

Definition calculate_breach_cost_score (d : string) (signals : list Signal) : Q :=
  let company := get_company_info d in
  let employees := default 100%Z (company_get employee_count company) in
  let base_score :=
    if (5000 <? employees)%Z then 0.8
    else if (1000 <? employees)%Z then 0.6
    else if (500 <? employees)%Z then 0.4
    else 0.3 in
  let multiplier := industry_multipliers_get (default "" (company_get industry company)) in
  pymin (base_score * multiplier) 1.0.

Definition assign_segment (signals : list Signal) (scores : Scores) : string :=
  let breach_signals := List.filter is_breach signals in
  let rule1 :=
    match breach_signals with
    | [] => false
    | s0 :: rest => (days_since (py_max_by signal_date s0 rest) <? 90)%Z
    end in
  if rule1 then "post_breach_survivor"
  else if Qlt_bool 0.7 (skills_gap scores) then "skills_gap_sufferer"
  else if Qlt_bool 0.7 (insurance scores) then "insurance_pressured"
  else if Qlt_bool 0.6 (dwell_time scores) then "resource_constrained"
  else
    let company :=
      get_company_info (match signals with s :: _ => domain s | [] => "" end) in
    if (default 0%Z (company_get employee_count company) <? 500)%Z
    then "overwhelmed_generalist"
    else "general_prospect".

Definition get_recommendation (score : Q) (seg : string) : string :=
  if Qle_bool 90 score then "immediate_outreach_priority"
  else if Qle_bool 75 score then "high_priority_outreach"
  else if Qle_bool 60 score then "medium_priority_nurture"
  else if Qle_bool 45 score then "low_priority_monitor"
  else "not_qualified".

(** The items of the [scores] dictionary, in insertion order *)
Definition score_items (scores : Scores) : list (string * Q) :=
  [ ("dwell_time", dwell_time scores);
    ("skills_gap", skills_gap scores);
    ("after_hours", after_hours scores);
    ("insurance", insurance scores);
    ("breach_cost", breach_cost scores) ].

(** [self.weights[k]] *)
Definition weight_of (k : string) : Q :=
  if String.eqb k "dwell_time" then dwell_time weights
  else if String.eqb k "skills_gap" then skills_gap weights
  else if String.eqb k "after_hours" then after_hours weights
  else if String.eqb k "insurance" then insurance weights
  else breach_cost weights.

(** [sum(scores[k] * self.weights[k] for k in scores)]; [sum] starts at 0
    and adds from the left. *)
Definition total_score (scores : Scores) : Q :=
  fold_left (fun acc kv => acc + snd kv * weight_of (fst kv)) (score_items scores) 0.

(** [max(scores, key=scores.get)]: the first key whose value is maximal *)
Definition max_key (scores : Scores) : string :=
  fst (fold_left
         (fun best kv => if Qlt_bool (snd best) (snd kv) then kv else best)
         (tl (score_items scores))
         ("dwell_time", dwell_time scores)).

Definition calculate_company_score (d : string) : ScoreData :=
  let signals := query_pain_signals clay_client d in
  let scores := {|
    dwell_time := calculate_dwell_score d signals;
    skills_gap := calculate_skills_gap_score d signals;
    after_hours := calculate_after_hours_score d signals;
    insurance := calculate_insurance_score d signals;
    breach_cost := calculate_breach_cost_score d signals
  |} in
  let total := total_score scores in
  let primary := max_key scores in
  let seg := assign_segment signals scores in
  {| sd_domain := d;
     pain_score := total * 100;
     individual_scores := scores;
     primary_edp := primary;
     segment := seg;
     recommendation := get_recommendation (total * 100) seg;
     timestamp := now |}.

End WithDatastore.

End Scorer.

(** ** The orchestrator's scoring pass, [src/main.py] *)

Module Orchestrator.

Import Scorer.

(** [SignalType.ACTIVE_RANSOMWARE.value] *)
Definition ACTIVE_RANSOMWARE : string := "active_ransomware".








Section WithDatastore.

Variable clay_client : ClayTables.
Variable now : Z.


End WithDatastore.



End Orchestrator.

(** ** Sink delivery, [send_to_webhook] and [trigger_webhook] *)

Module Webhook.

(** What [requests.post] does: it returns a response with a status code,
    or it raises. *)
Inductive PostOutcome :=
  | Responded (status_code : Z)
  | Raised.

(** [BreachCollector.send_to_webhook]: the whole body is inside [try];
    any exception gives [False]. *)
Definition send_to_webhook (outcome : PostOutcome) : bool :=
  match outcome with
  | Responded status_code => (status_code =? 200)%Z
  | Raised => false
  end.

(** [ClayClient.trigger_webhook] *)
Definition trigger_webhook (outcome : PostOutcome) : bool :=
  match outcome with
  | Responded status_code => (status_code =? 200)%Z
  | Raised => false
  end.

(** A status code of the 2xx range *)
Definition is_2xx (status_code : Z) : bool :=
  (200 <=? status_code)%Z && (status_code <=? 299)%Z.

End Webhook.

(** ** The breach deduplicator, [src/collectors/breach_collector.py] *)

Module BreachCollector.

Import Webhook.

(** A breach record as [parse_breach_row] and [parse_hhs_row] build it;
    [details] holds the remaining entries ([notice_date],
    [affected_count], [breach_type], [location]). *)
Record Breach := {
  company_name : string;
  breach_date : string;
  source : string;
  signal_type : string;
  signal_strength : Q;
  details : list (string * string)
}.

(** The file [data/sent_breach_hashes.json]: its set of hashes when it
    exists and parses, and whether it can be written. *)
Record SentDataFile := {
  sent_hashes : option (gset string);
  writable : bool
}.

(** One request to the sink: the batch and its position *)
Record WebhookData := {
  batch_number : nat;
  total_batches : nat;
  total_records : nat;
  batch : list Breach
}.

Definition batch_size : nat := 100.

(** [breaches[i:i + batch_size] for i in range(0, len(breaches), batch_size)] *)
Fixpoint batches_from (fuel : nat) (breaches : list Breach) : list (list Breach) :=
  match fuel with
  | O => []
  | S fuel' =>
      match breaches with
      | [] => []
      | _ :: _ => firstn batch_size breaches :: batches_from fuel' (skipn batch_size breaches)
      end
  end.

Definition batches (breaches : list Breach) : list (list Breach) :=
  batches_from (List.length breaches) breaches.

Section WithEnvironment.

(** [hashlib.md5(s.encode()).hexdigest()] *)
Variable md5_hexdigest : string -> string.
(** The sink: what the POST of each request comes to *)
Variable post : WebhookData -> PostOutcome.
(** [config.CLAY_WEBHOOK_URL] *)
Variable CLAY_WEBHOOK_URL : option string.

Definition _get_breach_hash (breach : Breach) : string :=
  let key_data :=
    company_name breach +:+ "|" +:+ breach_date breach +:+ "|" +:+ source breach in
  md5_hexdigest key_data.

(** A missing or unreadable file is the empty set. *)
Definition _load_sent_hashes (f : SentDataFile) : gset string :=
  default ∅ (sent_hashes f).

(** A failed write is reported and leaves the file as it was. *)
Definition _save_sent_hashes (f : SentDataFile) (hashes : gset string) : SentDataFile :=
  if writable f then {| sent_hashes := Some hashes; writable := true |} else f.

Definition filter_new_breaches (f : SentDataFile) (breaches : list Breach) : list Breach :=
  match breaches with
  | [] => []
  | _ :: _ =>
      let sent := _load_sent_hashes f in
      List.filter (fun breach => negb (bool_decide (_get_breach_hash breach ∈ sent))) breaches
  end.

Definition mark_breaches_as_sent (f : SentDataFile) (breaches : list Breach) : SentDataFile :=
  match breaches with
  | [] => f
  | _ :: _ =>
      let sent :=
        fold_left (fun acc breach => acc ∪ {[ _get_breach_hash breach ]})
                  breaches (_load_sent_hashes f) in
      _save_sent_hashes f sent
  end.

(** The loop of [push_to_clay] from batch number [k] on, with the two
    counters the function prints at the end (it returns nothing). *)
Fixpoint send_batches (total n : nat) (bs : list (list Breach)) (k : nat)
    (successful_batches failed_batches : nat) : nat * nat :=
  match bs with
  | [] => (successful_batches, failed_batches)
  | b :: bs' =>
      let webhook_data :=
        {| batch_number := k; total_batches := total; total_records := n; batch := b |} in
      if send_to_webhook (post webhook_data)
      then send_batches total n bs' (S k) (S successful_batches) failed_batches
      else send_batches total n bs' (S k) successful_batches (S failed_batches)
  end.

(** [if not config.CLAY_WEBHOOK_URL] *)
Definition webhook_configured : bool :=
  match CLAY_WEBHOOK_URL with
  | None => false
  | Some url => negb (String.eqb url "")
  end.

Definition push_to_clay (breaches : list Breach) : nat * nat :=
  if negb webhook_configured then (0, 0)%nat
  else
    match breaches with
    | [] => (0, 0)%nat
    | _ :: _ =>
        let bs := batches breaches in
        send_batches (List.length bs) (List.length breaches) bs 1 0 0
    end.

(** [run_collection] on the records the sources returned: the file
    afterwards, and the batch counts of the push (if any). *)
Definition run_collection (f : SentDataFile) (all_breaches : list Breach)
  : SentDataFile * option (nat * nat) :=
  let new_breaches := filter_new_breaches f all_breaches in
  match new_breaches with
  | _ :: _ =>
      let pushed := push_to_clay new_breaches in
      let f' := mark_breaches_as_sent f new_breaches in
      (f', Some pushed)
  | [] => (f, None)
  end.

End WithEnvironment.

End BreachCollector.

(** ** Domain extraction *)

Module Domains.

(** [extract_domain_from_url], [src/api/enriched_company_api.py] *)
Definition extract_domain_from_url (url : option string) : string :=
  match url with
  | None => ""
  | Some "" => ""
  | Some url =>
      let d := PyStr.replace "http://www." "" (PyStr.replace "https://www." "" url) in
      let d := PyStr.replace "http://" "" (PyStr.replace "https://" "" d) in
      PyStr.rstrip "/" d
  end.

(** The entries of [signal_data] that [ClayClient.extract_domain] reads:
    [website] is [raw_data['website']] when [raw_data] is a dictionary
    with that key. *)
Record SignalData := {
  website : option string;
  sd_domain : option string;
  sd_company_name : option string
}.

(** Python truthiness of an optional string *)
Definition truthy (x : option string) : bool :=
  match x with
  | Some s => negb (String.eqb s "")
  | None => false
  end.

(** [ClayClient.extract_domain], [src/clay_client.py] *)
Definition extract_domain (signal_data : SignalData) : option string :=
  if truthy (website signal_data) then
    let w := default "" (website signal_data) in
    Some (PyStr.split_head "/"
            (PyStr.replace "https://" ""
               (PyStr.replace "http://" "" (PyStr.replace "www." "" w))))
  else
    match sd_domain signal_data with
    | Some d => Some d
    | None =>
        let company_name := default "" (sd_company_name signal_data) in
        if negb (String.eqb company_name "") then
          let clean_name :=
            PyStr.replace "corp" ""
              (PyStr.replace "llc" ""
                 (PyStr.replace "inc" ""
                    (PyStr.replace " " "" (PyStr.lower company_name)))) in
          Some (clean_name +:+ ".com")
        else None
    end.

End Domains.

(** ** The specification's reading of the segment resolver and of
       domain canonicalization *)

Module Spec.

Import Scorer.

(** The decision list of the specification, section 4.4: rule 1 looks
    for any breach-type signal dated within 90 days. *)
Definition resolve (now : Z) (signals : list Signal) (sub_scores : Scores)
    (company_size : Z) : string :=
  if existsb (fun s => is_breach s && (days_since now s <? 90)%Z) signals
  then "post_breach_survivor"
  else if Qlt_bool 0.7 (skills_gap sub_scores) then "skills_gap_sufferer"
  else if Qlt_bool 0.7 (insurance sub_scores) then "insurance_pressured"
  else if Qlt_bool 0.6 (dwell_time sub_scores) then "resource_constrained"
  else if (company_size <? 500)%Z then "overwhelmed_generalist"
  else "general_prospect".

(** The composite of the specification, section 4.3 step 2 *)
Definition composite (s : Scores) : Q :=
  100 * (dwell_time s * 0.35 + skills_gap s * 0.25 + after_hours s * 0.15
         + insurance s * 0.15 + breach_cost s * 0.10).

End Spec.

(** ** The campaign generator, [src/campaigns/campaign_generator.py] *)

Module Campaigns.

(** The keys of the dictionary that [load_templates] returns *)
Definition template_keys : list string :=
  ["dark_web"; "insurance"; "dwell_time"; "after_hours"; "skills_gap"].

(** [mapping.get(primary_edp, 'dwell_time')] *)
Definition select_template (primary_edp : string) : string :=
  if String.eqb primary_edp "dwell_time" then "dwell_time"
  else if String.eqb primary_edp "skills_gap" then "skills_gap"
  else if String.eqb primary_edp "after_hours" then "after_hours"
  else if String.eqb primary_edp "insurance" then "insurance"
  else if String.eqb primary_edp "breach_cost" then "dwell_time"
  else "dwell_time".

(** A naive [datetime]: the day, counted from a Monday, and the time of
    day. *)
Record DateTime := {
  day : Z;
  hour : Z;
  minute : Z;
  second : Z;
  microsecond : Z
}.

(** [dt.weekday()]: Monday is 0 *)
Definition weekday (dt : DateTime) : Z := (day dt mod 7)%Z.

(** [dt + timedelta(days=n)] *)
Definition add_days (dt : DateTime) (n : Z) : DateTime :=
  {| day := (day dt + n)%Z; hour := hour dt; minute := minute dt;
     second := second dt; microsecond := microsecond dt |}.

(** [dt.replace(hour=10, minute=0, second=0)] *)
Definition at_10am (dt : DateTime) : DateTime :=
  {| day := day dt; hour := 10; minute := 0; second := 0;
     microsecond := microsecond dt |}.

(** The [while True] loop of [next_business_day_10am] from [days_ahead]
    on; [None] when the fuel runs out before a weekday is found. *)
Fixpoint find_business_day (fuel : nat) (now : DateTime) (days_ahead : Z)
  : option DateTime :=
  match fuel with
  | O => None
  | S fuel' =>
      let next_day := add_days now days_ahead in
      if (weekday next_day <? 5)%Z then Some (at_10am next_day)
      else find_business_day fuel' now (days_ahead + 1)%Z
  end.

Definition next_business_day_10am (fuel : nat) (now : DateTime) : option DateTime :=
  if (weekday now <? 5)%Z && (hour now <? 10)%Z then Some (at_10am now)
  else find_business_day fuel now 1.

(** The order of two instants *)
Definition time_of_day (dt : DateTime) : Z :=
  (((hour dt * 60 + minute dt) * 60 + second dt) * 1000000 + microsecond dt)%Z.

Definition instant (dt : DateTime) : Z :=
  (day dt * 86400000000 + time_of_day dt)%Z.

(** A well-formed [datetime] *)
Definition valid (dt : DateTime) : Prop :=
  (0 <= hour dt < 24 /\ 0 <= minute dt < 60 /\ 0 <= second dt < 60
   /\ 0 <= microsecond dt < 1000000)%Z.

(** A row of the [contacts] table *)
Record Contact := {
  email : string;
  name : string;
  title : string;
  first_name : string
}.

(** [s.upper()] on ASCII letters *)
Definition upper_ascii (a : ascii) : ascii :=
  let n := nat_of_ascii a in
  if (97 <=? n)%nat && (n <=? 122)%nat then ascii_of_nat (n - 32) else a.

Fixpoint upper (s : string) : string :=
  match s with
  | EmptyString => EmptyString
  | String a s' => String (upper_ascii a) (upper s')
  end.

Definition priority_titles : list string := ["CISO"; "CTO"; "IT Director"; "Security"].

(** The loop of [title_score] over [enumerate(priority_titles)] from
    index [i] on *)
Fixpoint title_score_from (i : nat) (priorities : list string) (t : string) : nat :=
  match priorities with
  | [] => 999
  | p :: ps => if PyStr.contains (upper p) t then i else title_score_from (S i) ps t
  end.

Definition title_score (contact : Contact) : nat :=
  title_score_from 0 priority_titles (upper (title contact)).

(** [contacts.sort(key=title_score)]: a stable sort, as insertion from
    the right *)
Fixpoint insert_by (key : Contact -> nat) (c : Contact) (l : list Contact) : list Contact :=
  match l with
  | [] => [c]
  | x :: l' => if (key c <=? key x)%nat then c :: x :: l' else x :: insert_by key c l'
  end.

Definition sort_by (key : Contact -> nat) (l : list Contact) : list Contact :=
  fold_right (insert_by key) [] l.

(** [find_contacts], given the rows of the [contacts] table for the
    domain *)
Definition find_contacts (d : string) (rows : list Contact) : list Contact :=
  let contacts :=
    match rows with
    | [] => [ {| email := "security@" +:+ d; name := "Security Team";
                 title := "Security"; first_name := "Security" |} ]
    | _ :: _ => rows
    end in
  sort_by title_score contacts.

(** The contacts [generate_campaign] writes to: [contacts[:3]] *)
Definition campaign_contacts (d : string) (rows : list Contact) : list Contact :=
  firstn 3 (find_contacts d rows).

End Campaigns.

(** ** The weighted sum on binary64 floats *)

Module Binary64.

#[local] Set Warnings "-inexact-float".

(** [self.weights.values()] *)
Definition weights : list float :=
  [0.35; 0.25; 0.15; 0.15; 0.10]%float.

(** [sum(scores[k] * self.weights[k] for k in scores)] on the values of
    [scores] in insertion order *)
Definition total_score (scores : list float) : float :=
  fold_left (fun acc sw => (acc + fst sw * snd sw)%float) (combine scores weights) 0%float.

(** [total_score * 100] *)
Definition pain_score (scores : list float) : float :=
  (total_score scores * 100)%float.

(** The additions of [calculate_dwell_score] on an empty signal set *)
Definition dwell_no_signals : float := (0 + 0.3 + 0.2 + 0.2)%float.

(** The floats that Python writes [0.7] and [0.3] *)
Definition seven_tenths : float := 0.7%float.
Definition three_tenths : float := 0.3%float.

End Binary64.

(** ** Sample data *)

Module Samples.

Import Scorer.

Definition day : Z := usec_per_day.

(** The clock of the samples: day 100 *)
Definition today : Z := 100 * day.




(** A breach signal that is 200 days old at [today] *)
Definition old_breach_signal : Signal :=
  {| domain := "acme.com";
     signal_type := "post_breach";
     signal_date := -100 * day;
     signal_strength := 0.4;
     raw_data := ∅;
     source := "california_ag" |}.

(** A datastore with no rows at all *)
Definition empty_tables : ClayTables :=
  {| query_pain_signals := fun _ => [];
     query_company_universe := fun _ => [] |}.

(** A datastore whose only rows are the given signals of acme.com *)
Definition acme_tables (signals : list Signal) : ClayTables :=
  {| query_pain_signals := fun d => if String.eqb d "acme.com" then signals else [];
     query_company_universe := fun _ => [] |}.

Definition scores_of (dwell skills ins : Q) : Scores :=
  {| dwell_time := dwell;
     skills_gap := skills;
     after_hours := 0.5;
     insurance := ins;
     breach_cost := 0.3 |}.

Definition acme_breach : BreachCollector.Breach :=
  {| BreachCollector.company_name := "Acme Corp";
     BreachCollector.breach_date := "2024-03-01T00:00:00";
     BreachCollector.source := "california_ag";
     BreachCollector.signal_type := "post_breach";
     BreachCollector.signal_strength := 0.4;
     BreachCollector.details := [("notice_date", "2024-03-15T00:00:00")] |}.

(** The same event after re-enrichment: other strength, other details *)
Definition acme_breach_again : BreachCollector.Breach :=
  {| BreachCollector.company_name := "Acme Corp";
     BreachCollector.breach_date := "2024-03-01T00:00:00";
     BreachCollector.source := "california_ag";
     BreachCollector.signal_type := "post_breach";
     BreachCollector.signal_strength := 0.2;
     BreachCollector.details := [("notice_date", "2024-04-02T00:00:00")] |}.

(** A ledger file that does not exist yet *)
Definition no_file : BreachCollector.SentDataFile :=
  {| BreachCollector.sent_hashes := None; BreachCollector.writable := true |}.

(** A stand-in for the digest: the key itself *)
Definition plain_digest (key_data : string) : string := key_data.

(** A sink that answers every request with status 500 *)
Definition failing_sink (data : BreachCollector.WebhookData) : Webhook.PostOutcome :=
  Webhook.Responded 500.

Definition sink_url : option string := Some "https://sink.example/webhook".

(** An executive vacancy that has been open for 120 days *)
Definition executive_vacancy : Signal :=
  {| domain := "acme.com";
     signal_type := "executive_vacancy_critical";
     signal_date := 95 * day;
     signal_strength := 0.8;
     raw_data := {[ "days_open" := 120%Z ]};
     source := "job_collector" |}.

End Samples.

(** * Properties *)

(** ** Arithmetic helpers *)

Lemma Qlt_bool_true (x y : Q) : Qlt_bool x y = true <-> x < y.
Proof.
  unfold Qlt_bool. rewrite negb_true_iff. split.
  - intros H. apply Qnot_le_lt. intros Hle.
    apply Qle_bool_iff in Hle. congruence.
  - intros H. destruct (Qle_bool y x) eqn:E; [|reflexivity].
    apply Qle_bool_iff in E. lra.
Qed.

Lemma Qlt_bool_false (x y : Q) : Qlt_bool x y = false <-> y <= x.
Proof.
  unfold Qlt_bool. rewrite negb_false_iff. apply Qle_bool_iff.
Qed.

Lemma pymin_one_bounds (x : Q) : 0 <= x -> 0 <= pymin x 1.0 /\ pymin x 1.0 <= 1.
Proof.
  intros Hx. unfold pymin. destruct (Qlt_bool 1.0 x) eqn:E.
  - split; lra.
  - apply Qlt_bool_false in E. split; lra.
Qed.

Lemma pymax_zero_bounds (x : Q) : x <= 1 -> 0 <= pymax x 0.0 /\ pymax x 0.0 <= 1.
Proof.
  intros Hx. unfold pymax. destruct (Qlt_bool x 0.0) eqn:E.
  - split; lra.
  - apply Qlt_bool_false in E. split; lra.
Qed.

Lemma pymin_one_le (x : Q) : pymin x 1.0 <= 1.
Proof.
  unfold pymin. destruct (Qlt_bool 1.0 x) eqn:E.
  - lra.
  - apply Qlt_bool_false in E. lra.
Qed.

(** ** List helpers *)

Lemma py_max_by_spec {A : Type} (key : A -> Z) (xs : list A) (x : A) :
  In (py_max_by key x xs) (x :: xs) /\
  forall y, In y (x :: xs) -> (key y <= key (py_max_by key x xs))%Z.
Proof.
  unfold py_max_by. revert x. induction xs as [|a xs IH]; intros x; simpl.
  - split; [now left|]. intros y [<-|[]]. lia.
  - destruct (IH (if (key x <? key a)%Z then a else x)) as [Hin Hmax].
    split.
    + simpl in Hin. destruct Hin as [Hin|Hin]; [|now right; right].
      rewrite <- Hin. destruct (key x <? key a)%Z; [right; now left | now left].
    + intros y Hy.
      assert (Hb : (key y <= key (if (key x <? key a)%Z then a else x))%Z \/ In y xs).
      { destruct Hy as [<-|[<-|Hy]]; [| |now right]; left;
          destruct (Z.ltb_spec (key x) (key a)); lia. }
      destruct Hb as [Hb|Hb].
      * etransitivity; [exact Hb|]. apply Hmax. now left.
      * apply Hmax. now right.
Qed.

Lemma existsb_filter {A : Type} (p q : A -> bool) (l : list A) :
  existsb (fun x => p x && q x) l = existsb q (List.filter p l).
Proof.
  induction l as [|a l IH]; simpl; [reflexivity|].
  destruct (p a); simpl; now rewrite IH.
Qed.


(** ** The scorer *)

Module ScorerFacts.

Import Scorer.

Section WithDatastore.

Variable clay_client : ClayTables.
Variable now : Z.

Lemma skills_gap_step_nonneg (score : Q) (v : Signal) :
  0 <= score -> 0 <= skills_gap_step score v.
Proof.
  intros H. unfold skills_gap_step.
  repeat match goal with |- context [if ?b then _ else _] => destruct b end; lra.
Qed.

Lemma skills_gap_loop_nonneg (vs : list Signal) (score : Q) :
  0 <= score -> 0 <= fold_left skills_gap_step vs score.
Proof.
  revert score. induction vs as [|v vs IH]; intros score H; simpl.
  - exact H.
  - apply IH. now apply skills_gap_step_nonneg.
Qed.

Lemma dwell_bounds (d : string) (signals : list Signal) :
  0 <= calculate_dwell_score now d signals /\ calculate_dwell_score now d signals <= 1.
Proof.
  unfold calculate_dwell_score. apply pymin_one_bounds. simpl.
  destruct (List.filter is_breach signals), (List.filter is_vacancy signals);
    repeat match goal with |- context [if ?b then _ else _] => destruct b end; lra.
Qed.

Lemma skills_gap_bounds (d : string) (signals : list Signal) :
  0 <= calculate_skills_gap_score d signals /\ calculate_skills_gap_score d signals <= 1.
Proof.
  unfold calculate_skills_gap_score. apply pymin_one_bounds.
  apply skills_gap_loop_nonneg. lra.
Qed.

Lemma after_hours_bounds (d : string) (signals : list Signal) :
  0 <= calculate_after_hours_score clay_client d signals
  /\ calculate_after_hours_score clay_client d signals <= 1.
Proof.
  unfold calculate_after_hours_score. apply pymax_zero_bounds, pymin_one_le.
Qed.

Lemma insurance_bounds (d : string) (signals : list Signal) :
  0 <= calculate_insurance_score clay_client d signals
  /\ calculate_insurance_score clay_client d signals <= 1.
Proof.
  unfold calculate_insurance_score. apply pymin_one_bounds.
  destruct (List.filter is_breach signals), (List.filter is_compliance signals);
    repeat match goal with |- context [if ?b then _ else _] => destruct b end; lra.
Qed.

Lemma industry_multiplier_pos (key : string) : 0 < industry_multipliers_get key.
Proof.
  unfold industry_multipliers_get.
  repeat match goal with |- context [if ?b then _ else _] => destruct b end; lra.
Qed.

Lemma breach_cost_bounds (d : string) (signals : list Signal) :
  0 <= calculate_breach_cost_score clay_client d signals
  /\ calculate_breach_cost_score clay_client d signals <= 1.
Proof.
  unfold calculate_breach_cost_score. apply pymin_one_bounds.
  set (m := industry_multipliers_get _).
  assert (Hm : 0 < m) by apply industry_multiplier_pos.
  repeat match goal with |- context [if ?b then _ else _] => destruct b end; nra.
Qed.

Lemma total_score_eq (s : Scores) :
  total_score s * 100 == Spec.composite s.
Proof.
  unfold total_score, Spec.composite, score_items, weight_of, weights. simpl. ring.
Qed.

Lemma days_since_antitone (s1 s2 : Signal) :
  (signal_date s1 <= signal_date s2)%Z -> (days_since now s2 <= days_since now s1)%Z.
Proof.
  intros H. unfold days_since, usec_per_day. apply Z.div_le_mono; lia.
Qed.

(** Rule 1 tests the most recent breach signal; that is the same as
    asking whether any breach signal is less than 90 days old. *)
Lemma most_recent_breach_within (signals : list Signal) :
  match List.filter is_breach signals with
  | [] => false
  | s0 :: rest => (days_since now (py_max_by signal_date s0 rest) <? 90)%Z
  end
  = existsb (fun s => is_breach s && (days_since now s <? 90)%Z) signals.
Proof.
  rewrite existsb_filter.
  destruct (List.filter is_breach signals) as [|s0 rest]; [reflexivity|].
  destruct (py_max_by_spec signal_date rest s0) as [Hin Hmax].
  set (m := py_max_by signal_date s0 rest) in *.
  destruct (Z.ltb_spec (days_since now m) 90) as [Hlt|Hge].
  - symmetry. apply existsb_exists. exists m. split; [exact Hin|].
    now apply Z.ltb_lt.
  - symmetry. apply not_true_is_false. intros Hex.
    apply existsb_exists in Hex. destruct Hex as (y & Hy & Hq).
    apply Z.ltb_lt in Hq.
    pose proof (days_since_antitone y m (Hmax y Hy)). lia.
Qed.

Lemma assign_segment_resolve (signals : list Signal) (scores : Scores) :
  assign_segment clay_client now signals scores
  = Spec.resolve now signals scores
      (default 0%Z
         (company_get employee_count
            (get_company_info clay_client
               (match signals with s :: _ => domain s | [] => "" end)))).
Proof.
  unfold assign_segment, Spec.resolve.
  rewrite most_recent_breach_within. reflexivity.
Qed.

End WithDatastore.

End ScorerFacts.

(** ** Claims about the scorer and the orchestrator *)

Import Scorer.

(** C4. For every datastore content (signal set and company metadata) each
    of the five sub-scores of [calculate_company_score] lies in [0,1]; the
    pain score is 100 times the weighted sum of the sub-scores with the
    weights 0.35, 0.25, 0.15, 0.15 and 0.10, which sum to 1; and the pain
    score lies in [0,100].  Scores are rationals here; the upper end is
    evaluated on binary64 floats further down. *)
Theorem score_bounds (clay_client : ClayTables) (now : Z) (d : string) :
  let r := calculate_company_score clay_client now d in
  let s := individual_scores r in
  (0 <= dwell_time s /\ dwell_time s <= 1) /\
  (0 <= skills_gap s /\ skills_gap s <= 1) /\
  (0 <= after_hours s /\ after_hours s <= 1) /\
  (0 <= insurance s /\ insurance s <= 1) /\
  (0 <= breach_cost s /\ breach_cost s <= 1) /\
  pain_score r ==
    100 * (dwell_time s * dwell_time weights + skills_gap s * skills_gap weights
           + after_hours s * after_hours weights + insurance s * insurance weights
           + breach_cost s * breach_cost weights) /\
  (dwell_time weights == 0.35 /\ skills_gap weights == 0.25 /\
   after_hours weights == 0.15 /\ insurance weights == 0.15 /\
   breach_cost weights == 0.10) /\
  dwell_time weights + skills_gap weights + after_hours weights
    + insurance weights + breach_cost weights == 1 /\
  (0 <= pain_score r /\ pain_score r <= 100).
Proof.
  intros r s.
  pose proof (ScorerFacts.dwell_bounds now d (query_pain_signals clay_client d)) as Hd.
  pose proof (ScorerFacts.skills_gap_bounds d (query_pain_signals clay_client d)) as Hs.
  pose proof (ScorerFacts.after_hours_bounds clay_client d (query_pain_signals clay_client d)) as Ha.
  pose proof (ScorerFacts.insurance_bounds clay_client d (query_pain_signals clay_client d)) as Hi.
  pose proof (ScorerFacts.breach_cost_bounds clay_client d (query_pain_signals clay_client d)) as Hb.
  assert (Hp : pain_score r == Spec.composite s) by apply ScorerFacts.total_score_eq.
  unfold Spec.composite in Hp.
  change (dwell_time s) with (calculate_dwell_score now d (query_pain_signals clay_client d)) in *.
  change (skills_gap s) with (calculate_skills_gap_score d (query_pain_signals clay_client d)) in *.
  change (after_hours s)
    with (calculate_after_hours_score clay_client d (query_pain_signals clay_client d)) in *.
  change (insurance s)
    with (calculate_insurance_score clay_client d (query_pain_signals clay_client d)) in *.
  change (breach_cost s)
    with (calculate_breach_cost_score clay_client d (query_pain_signals clay_client d)) in *.
  generalize dependent (pain_score r). clear r s.
  intros p Hp. unfold weights; cbn [dwell_time skills_gap after_hours insurance breach_cost].
  repeat split; try tauto; try reflexivity; lra.
Qed.









(** Without a company row every [company.get] falls back to its default. *)
Lemma no_company_info (clay_client : ClayTables) (d : string) :
  query_company_universe clay_client d = [] -> get_company_info clay_client d = None.
Proof. intros H. unfold get_company_info. now rewrite H. Qed.

(** C10. When [company_universe] has no row for the domain, the
    breach_cost sub-score is computed from 100 employees and multiplier
    1.0 and is exactly 0.3, while [assign_segment] reads the missing
    employee_count as 0: it never answers general_prospect, and when rules
    1 to 4 do not match it answers overwhelmed_generalist. *)
Theorem missing_company_defaults (clay_client : ClayTables) (now : Z) (d : string)
    (signals : list Signal) (scores : Scores) :
  query_company_universe clay_client d = [] ->
  calculate_breach_cost_score clay_client d signals == 0.3 /\
  (match signals with s :: _ => domain s | [] => "" end = d ->
   assign_segment clay_client now signals scores <> "general_prospect" /\
   ((forall s, In s signals -> is_breach s = true -> (90 <= days_since now s)%Z) ->
    skills_gap scores <= 0.7 -> insurance scores <= 0.7 -> dwell_time scores <= 0.6 ->
    assign_segment clay_client now signals scores = "overwhelmed_generalist")).
Proof.
  intros Hnone. apply no_company_info in Hnone. split.
  - unfold calculate_breach_cost_score. rewrite Hnone. reflexivity.
  - intros Hkey. rewrite ScorerFacts.assign_segment_resolve, Hkey, Hnone.
    unfold Spec.resolve. simpl company_get. simpl default.
    change (0 <? 500)%Z with true. cbv iota. split.
    + repeat match goal with |- context [if ?b then _ else _] => destruct b end;
        discriminate.
    + intros H1 H2 H3 H4.
      replace (existsb _ signals) with false.
      * apply Qlt_bool_false in H2, H3, H4. now rewrite H2, H3, H4.
      * symmetry. apply not_true_is_false. intros Hex.
        apply existsb_exists in Hex. destruct Hex as (s & Hin & Hs).
        apply andb_true_iff in Hs. destruct Hs as [Hb Hlt].
        apply Z.ltb_lt in Hlt. specialize (H1 s Hin Hb). lia.
Qed.

(** The defaults at the sample company: no company row, one breach that
    is 200 days old, sub-scores below the thresholds of rules 2 to 4 *)
Lemma missing_company_defaults_witness :
  calculate_breach_cost_score Samples.empty_tables "acme.com" [Samples.old_breach_signal] == 0.3 /\
  assign_segment Samples.empty_tables Samples.today [Samples.old_breach_signal]
    (Samples.scores_of 0.5 0.2 0.4) = "overwhelmed_generalist".
Proof.
  destruct (missing_company_defaults Samples.empty_tables Samples.today "acme.com"
              [Samples.old_breach_signal] (Samples.scores_of 0.5 0.2 0.4) eq_refl)
    as [Hcost Hseg].
  split; [exact Hcost|].
  apply (Hseg eq_refl).
  - intros s [<-|[]] _. vm_compute. discriminate.
  - vm_compute. discriminate.
  - vm_compute. discriminate.
  - vm_compute. discriminate.
Defined.

(** The sub-scores on an empty signal set *)
Lemma dwell_empty (now : Z) (d : string) : calculate_dwell_score now d [] == 0.7.
Proof. reflexivity. Qed.

Lemma skills_gap_empty (d : string) : calculate_skills_gap_score d [] == 0.
Proof. reflexivity. Qed.

Lemma after_hours_empty (clay_client : ClayTables) (d : string) (signals : list Signal) :
  calculate_after_hours_score clay_client d signals
  == if in_strings (company_get industry (get_company_info clay_client d))
          ["healthcare"; "finance"; "critical_infrastructure"]
     then 0.7 else 0.5.
Proof.
  unfold calculate_after_hours_score. simpl.
  destruct (in_strings _ _); reflexivity.
Qed.

Lemma insurance_empty (clay_client : ClayTables) (d : string) :
  calculate_insurance_score clay_client d []
  == if in_strings (company_get industry (get_company_info clay_client d))
          ["healthcare"; "finance"]
     then 0.3 else 0.
Proof.
  unfold calculate_insurance_score. simpl.
  destruct (in_strings _ _); reflexivity.
Qed.

Lemma breach_cost_default_employees (clay_client : ClayTables) (d : string)
    (signals : list Signal) :
  company_get employee_count (get_company_info clay_client d) = None ->
  calculate_breach_cost_score clay_client d signals
  == pymin (0.3 * industry_multipliers_get
                    (default "" (company_get industry (get_company_info clay_client d))))
           1.0.
Proof.
  intros H. unfold calculate_breach_cost_score. rewrite H. reflexivity.
Qed.

(** C5, as the code has it.  On an empty signal set skills_gap is 0 and
    insurance is 0 apart from its industry term (0.3 for healthcare and
    finance); dwell_time is 0.7, the three penalties for missing tooling
    that the placeholder tech stack always yields; after_hours is 0.5
    plus the industry term; breach_cost is the employee tier times the
    industry multiplier, the tier being 0.3 from the default of 100
    employees when the company row has no employee_count; the pain score
    is the weighted sum, and with no company row at all the sub-scores are
    0.7, 0, 0.5, 0, 0.3 and the pain score is 35. *)
Theorem empty_signal_scores (clay_client : ClayTables) (now : Z) (d : string) :
  query_pain_signals clay_client d = [] ->
  let r := calculate_company_score clay_client now d in
  let s := individual_scores r in
  let company := get_company_info clay_client d in
  dwell_time s == 0.7 /\
  skills_gap s == 0 /\
  after_hours s
    == (if in_strings (company_get industry company)
             ["healthcare"; "finance"; "critical_infrastructure"]
        then 0.7 else 0.5) /\
  insurance s
    == (if in_strings (company_get industry company) ["healthcare"; "finance"]
        then 0.3 else 0) /\
  (company_get employee_count company = None ->
   breach_cost s
   == pymin (0.3 * industry_multipliers_get (default "" (company_get industry company))) 1.0) /\
  pain_score r == Spec.composite s /\
  (query_company_universe clay_client d = [] ->
   after_hours s == 0.5 /\ insurance s == 0 /\ breach_cost s == 0.3 /\ pain_score r == 35).
Proof.
  intros Hs r s company.
  assert (Hp : pain_score r == Spec.composite s) by apply ScorerFacts.total_score_eq.
  assert (Hd : dwell_time s == 0.7).
  { unfold s, r, calculate_company_score. cbn [individual_scores dwell_time].
    rewrite Hs. apply dwell_empty. }
  assert (Hk : skills_gap s == 0).
  { unfold s, r, calculate_company_score. cbn [individual_scores skills_gap].
    rewrite Hs. apply skills_gap_empty. }
  assert (Ha : after_hours s
               == (if in_strings (company_get industry company)
                        ["healthcare"; "finance"; "critical_infrastructure"]
                   then 0.7 else 0.5)) by apply after_hours_empty.
  assert (Hi : insurance s
               == (if in_strings (company_get industry company) ["healthcare"; "finance"]
                   then 0.3 else 0)).
  { unfold s, r, calculate_company_score. cbn [individual_scores insurance].
    rewrite Hs. apply insurance_empty. }
  repeat (split; [assumption|]).
  split; [intros He; now apply breach_cost_default_employees|].
  split; [exact Hp|].
  intros Hc. apply no_company_info in Hc.
  assert (Hb : breach_cost s == 0.3).
  { unfold s, r, calculate_company_score. cbn [individual_scores breach_cost].
    unfold calculate_breach_cost_score. rewrite Hc. reflexivity. }
  assert (Ha' : after_hours s == 0.5).
  { unfold company in Ha. rewrite Hc in Ha. exact Ha. }
  assert (Hi' : insurance s == 0).
  { unfold company in Hi. rewrite Hc in Hi. exact Hi. }
  repeat (split; [assumption|]).
  unfold Spec.composite in Hp. lra.
Qed.

(** The sub-scores of a company in an empty datastore *)
Lemma empty_signal_scores_witness :
  let r := calculate_company_score Samples.empty_tables Samples.today "acme.com" in
  dwell_time (individual_scores r) == 0.7 /\ skills_gap (individual_scores r) == 0.
Proof.
  pose proof (empty_signal_scores Samples.empty_tables Samples.today "acme.com" eq_refl)
    as (Hd & Hk & _).
  exact (conj Hd Hk).
Defined.

(** C5, as the specification states it, fails at the company with no
    rows at all: its dwell_time sub-score is 0.7, not 0. *)
Lemma empty_signals_dwell_not_zero :
  query_pain_signals Samples.empty_tables "acme.com" = [] /\
  dwell_time (individual_scores
                (calculate_company_score Samples.empty_tables Samples.today "acme.com"))
    == 0.7 /\
  ~ dwell_time (individual_scores
                  (calculate_company_score Samples.empty_tables Samples.today "acme.com"))
      == 0.
Proof.
  split; [reflexivity|]. split; [reflexivity|]. intros H. discriminate H.
Qed.

(** ** Claims about sink delivery *)

(** C8, as the specification states it, fails at status 201: it is in the
    2xx range and both senders report a failure. *)
Lemma created_is_not_accepted :
  Webhook.is_2xx 201 = true /\
  Webhook.send_to_webhook (Webhook.Responded 201) = false /\
  Webhook.trigger_webhook (Webhook.Responded 201) = false.
Proof. repeat split. Qed.

(** C8, as the code has it.  A delivery is reported as accepted exactly
    when the POST returns status 200; every other status, 2xx or not, and
    every raised error is reported as a failure.  An accepted delivery is
    in particular a 2xx one. *)
Theorem accepted_iff_200 (outcome : Webhook.PostOutcome) :
  (Webhook.send_to_webhook outcome = true <-> outcome = Webhook.Responded 200) /\
  (Webhook.trigger_webhook outcome = true <-> outcome = Webhook.Responded 200) /\
  (Webhook.send_to_webhook outcome = true ->
   exists code, outcome = Webhook.Responded code /\ Webhook.is_2xx code = true) /\
  (outcome = Webhook.Raised ->
   Webhook.send_to_webhook outcome = false /\ Webhook.trigger_webhook outcome = false).
Proof.
  assert (H : forall o, (match o with
                         | Webhook.Responded c => (c =? 200)%Z
                         | Webhook.Raised => false
                         end = true) <-> o = Webhook.Responded 200).
  { intros [c|]; split; intros E; try discriminate.
    - apply Z.eqb_eq in E. now subst.
    - injection E as ->. reflexivity. }
  split; [apply H|]. split; [apply H|]. split.
  - intros E. apply H in E. subst. exists 200%Z. split; reflexivity.
  - intros ->. split; reflexivity.
Qed.

(** ** Claims about domain extraction *)

Lemma rstrip_no_trailing (c : ascii) (s : string) :
  PyStr.ends_with c (PyStr.rstrip c s) = false.
Proof.
  induction s as [|a s IH]; simpl; [reflexivity|].
  destruct (PyStr.rstrip c s) as [|b r] eqn:E.
  - destruct (Ascii.eqb a c) eqn:Ea; simpl; [reflexivity | exact Ea].
  - exact IH.
Qed.

(** C7, as the specification states it, fails at the first of its three
    inputs: the capital letter survives. *)
Lemma capital_survives_extraction :
  Domains.extract_domain_from_url (Some "https://www.Example.com/") = "Example.com" /\
  Domains.extract_domain
    {| Domains.website := Some "https://www.Example.com/";
       Domains.sd_domain := None;
       Domains.sd_company_name := None |} = Some "Example.com" /\
  "Example.com" <> "example.com".
Proof. repeat split. discriminate. Qed.

(** C7, as the code has it.  Both extractors strip the scheme, a www.
    prefix and what follows the host (the trailing slashes, in
    [extract_domain_from_url] for every input), and keep the case of the
    letters: "https://www.Example.com/" gives "Example.com", while
    "example.com" and "http://example.com" give "example.com"; lowercasing
    the three results gives the one key "example.com". *)
Theorem domain_extraction :
  (forall url, PyStr.ends_with "/" (Domains.extract_domain_from_url url) = false) /\
  Domains.extract_domain_from_url (Some "https://www.Example.com/") = "Example.com" /\
  Domains.extract_domain_from_url (Some "example.com") = "example.com" /\
  Domains.extract_domain_from_url (Some "http://example.com") = "example.com" /\
  Domains.extract_domain_from_url (Some "https://www.example.com/") = "example.com" /\
  (forall u, In u ["https://www.Example.com/"; "example.com"; "http://example.com"] ->
     PyStr.lower (Domains.extract_domain_from_url (Some u)) = "example.com" /\
     option_map PyStr.lower
       (Domains.extract_domain
          {| Domains.website := Some u; Domains.sd_domain := None;
             Domains.sd_company_name := None |}) = Some "example.com").
Proof.
  split.
  - intros [[|a u]|]; try reflexivity. apply rstrip_no_trailing.
  - repeat split; try reflexivity;
      repeat match goal with H : In _ _ |- _ => destruct H as [<-|H] end;
      try reflexivity; contradiction.
Qed.

(** ** Claims about the deduplicator *)

Module DedupFacts.

Import BreachCollector.

Section WithDigest.

Variable md5_hexdigest : string -> string.

(** The hashes [mark_breaches_as_sent] collects: those already there and
    one for each record. *)
Lemma collected_hashes (breaches : list Breach) (sent : gset string) (h : string) :
  h ∈ fold_left (fun acc breach => acc ∪ {[ _get_breach_hash md5_hexdigest breach ]})
        breaches sent
  <-> h ∈ sent \/ exists b, In b breaches /\ h = _get_breach_hash md5_hexdigest b.
Proof.
  revert sent. induction breaches as [|b bs IH]; intros sent; simpl.
  - split; [now left | intros [H|(b & [] & _)]; exact H].
  - rewrite IH, elem_of_union, elem_of_singleton. split.
    + intros [[H|H]|(b' & Hin & H)]; [now left | right; exists b; auto | right; exists b'; auto].
    + intros [H|(b' & [<-|Hin] & H)]; [left; now left | left; now right | right; exists b'; auto].
Qed.

(** The key depends on the three fields only. *)
Lemma hash_of_key (b1 b2 : Breach) :
  company_name b1 = company_name b2 ->
  breach_date b1 = breach_date b2 ->
  source b1 = source b2 ->
  _get_breach_hash md5_hexdigest b1 = _get_breach_hash md5_hexdigest b2.
Proof. intros H1 H2 H3. unfold _get_breach_hash. now rewrite H1, H2, H3. Qed.

Lemma load_after_mark (f : SentDataFile) (b : Breach) (bs : list Breach) :
  writable f = true ->
  _load_sent_hashes (mark_breaches_as_sent md5_hexdigest f (b :: bs))
  = fold_left (fun acc breach => acc ∪ {[ _get_breach_hash md5_hexdigest breach ]})
      (b :: bs) (_load_sent_hashes f).
Proof.
  intros Hw. unfold mark_breaches_as_sent, _save_sent_hashes. rewrite Hw. reflexivity.
Qed.

Lemma filter_single_new (f : SentDataFile) (b : Breach) :
  _get_breach_hash md5_hexdigest b ∉ _load_sent_hashes f ->
  filter_new_breaches md5_hexdigest f [b] = [b].
Proof.
  intros H. unfold filter_new_breaches. simpl.
  rewrite bool_decide_eq_false_2 by exact H. reflexivity.
Qed.

Lemma filter_single_seen (f : SentDataFile) (b : Breach) :
  _get_breach_hash md5_hexdigest b ∈ _load_sent_hashes f ->
  filter_new_breaches md5_hexdigest f [b] = [].
Proof.
  intros H. unfold filter_new_breaches. simpl.
  rewrite bool_decide_eq_true_2 by exact H. reflexivity.
Qed.

(** Whatever the sink answers, [run_collection] writes the hash of every
    record it classified as new. *)
Lemma run_collection_marks_new (post : WebhookData -> Webhook.PostOutcome)
    (url : option string) (f : SentDataFile) (all_breaches : list Breach) (b : Breach) :
  writable f = true ->
  In b (filter_new_breaches md5_hexdigest f all_breaches) ->
  _get_breach_hash md5_hexdigest b
  ∈ _load_sent_hashes (fst (run_collection md5_hexdigest post url f all_breaches)).
Proof.
  intros Hw Hin. unfold run_collection.
  destruct (filter_new_breaches md5_hexdigest f all_breaches) as [|n ns]; [destruct Hin|].
  cbn [fst]. rewrite load_after_mark by exact Hw.
  apply collected_hashes. right. exists b. split; [exact Hin | reflexivity].
Qed.

End WithDigest.

End DedupFacts.

Import BreachCollector.

(** C6. The dedup key is computed from company_name, breach_date and
    source only.  A record that is not in the ledger yet, submitted twice
    (the second time with other details) with the mark-sent commit after
    the first submission, is classified new exactly once, and the ledger
    gains exactly one hash. *)
Theorem dedup_idempotent (md5_hexdigest : string -> string) (f : SentDataFile)
    (b1 b2 : Breach) :
  company_name b1 = company_name b2 ->
  breach_date b1 = breach_date b2 ->
  source b1 = source b2 ->
  writable f = true ->
  _get_breach_hash md5_hexdigest b1 ∉ _load_sent_hashes f ->
  let new1 := filter_new_breaches md5_hexdigest f [b1] in
  let f' := mark_breaches_as_sent md5_hexdigest f new1 in
  let new2 := filter_new_breaches md5_hexdigest f' [b2] in
  _get_breach_hash md5_hexdigest b1 = _get_breach_hash md5_hexdigest b2 /\
  new1 = [b1] /\ new2 = [] /\
  (List.length new1 + List.length new2 = 1)%nat /\
  _load_sent_hashes f' = _load_sent_hashes f ∪ {[ _get_breach_hash md5_hexdigest b1 ]} /\
  size (_load_sent_hashes f') = S (size (_load_sent_hashes f)).
Proof.
  intros Hn Hd Hs Hw Hfresh new1 f' new2.
  pose proof (DedupFacts.hash_of_key md5_hexdigest b1 b2 Hn Hd Hs) as Hh.
  assert (E1 : new1 = [b1]) by now apply DedupFacts.filter_single_new.
  assert (Hl : _load_sent_hashes f'
               = _load_sent_hashes f ∪ {[ _get_breach_hash md5_hexdigest b1 ]}).
  { unfold f'. rewrite E1. now rewrite DedupFacts.load_after_mark. }
  assert (E2 : new2 = []).
  { apply DedupFacts.filter_single_seen. rewrite Hl, <- Hh.
    apply elem_of_union_r, elem_of_singleton. reflexivity. }
  split; [exact Hh|]. split; [exact E1|]. split; [exact E2|].
  split; [now rewrite E1, E2|]. split; [exact Hl|].
  rewrite Hl, size_union by (apply disjoint_singleton_r; exact Hfresh).
  rewrite size_singleton. lia.
Qed.

(** The sample breach, submitted again after re-enrichment *)
Lemma dedup_idempotent_witness :
  filter_new_breaches Samples.plain_digest Samples.no_file [Samples.acme_breach]
    = [Samples.acme_breach] /\
  filter_new_breaches Samples.plain_digest
    (mark_breaches_as_sent Samples.plain_digest Samples.no_file
       (filter_new_breaches Samples.plain_digest Samples.no_file [Samples.acme_breach]))
    [Samples.acme_breach_again] = [].
Proof.
  assert (Hfresh : _get_breach_hash Samples.plain_digest Samples.acme_breach
                   ∉ _load_sent_hashes Samples.no_file)
    by apply not_elem_of_empty.
  pose proof (dedup_idempotent Samples.plain_digest Samples.no_file
                Samples.acme_breach Samples.acme_breach_again
                eq_refl eq_refl eq_refl eq_refl Hfresh) as (_ & H1 & H2 & _).
  exact (conj H1 H2).
Defined.

(** C2 at a failing delivery.  One new record, a sink that answers 500:
    the push counts one failed batch and no successful one, and still the
    run writes the record's hash to the ledger, so that the next run does
    not classify the record as new. *)
Theorem failed_delivery_marked_sent (md5_hexdigest : string -> string) (b : Breach) :
  let run :=
    run_collection md5_hexdigest Samples.failing_sink Samples.sink_url Samples.no_file [b] in
  snd run = Some (0, 1)%nat /\
  _get_breach_hash md5_hexdigest b ∈ _load_sent_hashes (fst run) /\
  filter_new_breaches md5_hexdigest (fst run) [b] = [].
Proof.
  intros run.
  assert (Hnew : filter_new_breaches md5_hexdigest Samples.no_file [b] = [b]).
  { apply DedupFacts.filter_single_new. apply not_elem_of_empty. }
  assert (Hrun : run = (mark_breaches_as_sent md5_hexdigest Samples.no_file [b],
                        Some (0, 1)%nat)).
  { unfold run, run_collection. rewrite Hnew. reflexivity. }
  assert (Hin : _get_breach_hash md5_hexdigest b ∈ _load_sent_hashes (fst run)).
  { rewrite Hrun. cbn [fst]. rewrite DedupFacts.load_after_mark by reflexivity.
    apply DedupFacts.collected_hashes. right. exists b. split; [now left | reflexivity]. }
  split; [now rewrite Hrun|]. split; [exact Hin|].
  now apply DedupFacts.filter_single_seen.
Qed.

(** ** Further properties of the code *)

(** X1. [primary_edp] is a key of maximal sub-score, and among the keys of
    maximal sub-score the first in the declared order: every key before
    it has a strictly smaller sub-score. *)
Theorem primary_edp_first_max (s : Scores) :
  exists (i : nat) (v : Q),
    Scorer.score_items s !! i = Some (Scorer.max_key s, v) /\
    (forall k' v', In (k', v') (Scorer.score_items s) -> v' <= v) /\
    (forall (j : nat) k' v', (j < i)%nat ->
       Scorer.score_items s !! j = Some (k', v') -> v' < v).
Proof.
  unfold Scorer.max_key, Scorer.score_items. cbn [tl fold_left snd].
  repeat match goal with
         | |- context [Qlt_bool (?f s) (?g s)] =>
             let E := fresh "E" in
             destruct (Qlt_bool (f s) (g s)) eqn:E;
             [apply Qlt_bool_true in E | apply Qlt_bool_false in E];
             cbn [fst snd]
         end.
  all: first
    [ exists 0%nat; eexists; split; [reflexivity|]
    | exists 1%nat; eexists; split; [reflexivity|]
    | exists 2%nat; eexists; split; [reflexivity|]
    | exists 3%nat; eexists; split; [reflexivity|]
    | exists 4%nat; eexists; split; [reflexivity|] ].
  all: split;
    [ intros k' v' H; cbn [In] in H;
      repeat match goal with
             | H : _ \/ _ |- _ => destruct H as [H|H]
             | H : (_, _) = (_, _) |- _ => injection H as <- <-
             | H : False |- _ => destruct H
             end; lra
    | intros j k' v' Hj H;
      do 5 (destruct j as [|j]; [try (exfalso; lia); injection H as <- <-; lra|]);
      exfalso; lia ].
Qed.

(** X2. The ledger only grows: marking records as sent keeps every hash
    that was there.  A ledger file that is missing or unreadable is read as
    the empty set, so every submitted record is then classified as new. *)
Theorem ledger_grows_and_fails_open (md5_hexdigest : string -> string) :
  (forall f breaches,
     _load_sent_hashes f
     ⊆ _load_sent_hashes (mark_breaches_as_sent md5_hexdigest f breaches)) /\
  (forall w breaches,
     filter_new_breaches md5_hexdigest {| sent_hashes := None; writable := w |} breaches
     = breaches).
Proof.
  split.
  - intros f [|b bs]; [reflexivity|].
    unfold mark_breaches_as_sent, _save_sent_hashes.
    destruct (writable f); [|reflexivity].
    intros h Hh. unfold _load_sent_hashes at 1. cbn [sent_hashes default].
    apply DedupFacts.collected_hashes. now left.
  - intros w [|b bs]; [reflexivity|].
    unfold filter_new_breaches, _load_sent_hashes. cbn [sent_hashes default].
    generalize (b :: bs). intros l. induction l as [|a l IH]; [reflexivity|].
    cbn [List.filter]. rewrite bool_decide_eq_false_2 by apply not_elem_of_empty.
    cbn [negb]. now rewrite IH.
Qed.

Lemma batches_from_concat (fuel : nat) (l : list Breach) :
  (List.length l <= fuel)%nat -> concat (batches_from fuel l) = l.
Proof.
  revert l. induction fuel as [|fuel IH]; intros l Hl.
  - destruct l; [reflexivity | simpl in Hl; lia].
  - destruct l as [|x l]; [reflexivity|].
    cbn [batches_from concat]. rewrite IH.
    + apply firstn_skipn.
    + rewrite length_skipn. unfold batch_size.
      change (List.length (x :: l)) with (S (List.length l)) in *. lia.
Qed.

Lemma batches_from_sizes (fuel : nat) (l : list Breach) :
  Forall (fun b => (1 <= List.length b <= batch_size)%nat) (batches_from fuel l).
Proof.
  revert l. induction fuel as [|fuel IH]; intros l; [constructor|].
  destruct l as [|x l]; [constructor|].
  cbn [batches_from]. constructor; [|apply IH].
  rewrite length_firstn. unfold batch_size.
  change (List.length (x :: l)) with (S (List.length l)). lia.
Qed.

(** X3. [push_to_clay] cuts the records into consecutive batches of at
    least one and at most 100 records that together are the records it
    was given, in order. *)
Theorem batches_partition (breaches : list Breach) :
  concat (batches breaches) = breaches /\
  Forall (fun b => (1 <= List.length b <= 100)%nat) (batches breaches).
Proof.
  split.
  - apply batches_from_concat. reflexivity.
  - apply batches_from_sizes.
Qed.

(** On binary64 floats, as Python computes them: the five weights sum
    to exactly 1.0, the pain score of five sub-scores 1.0 is exactly
    100.0, the dwell_time additions on an empty signal set give the float
    0.7, and the pain score of the sub-scores 0.7, 0, 0.5, 0, 0.3 is
    exactly 35.0. *)
Theorem binary64_agrees :
  fold_left PrimFloat.add Binary64.weights 0%float = 1%float /\
  Binary64.pain_score [1; 1; 1; 1; 1]%float = 100%float /\
  Binary64.dwell_no_signals = Binary64.seven_tenths /\
  Binary64.pain_score [Binary64.dwell_no_signals; 0; 0.5; 0; Binary64.three_tenths]%float
  = 35%float.
Proof. repeat split; vm_compute; reflexivity. Qed.


(** [assign_segment] always answers one of the six segment labels. *)
Theorem segment_labels (clay_client : ClayTables) (now : Z)
    (signals : list Signal) (scores : Scores) :
  In (assign_segment clay_client now signals scores)
     ["post_breach_survivor"; "skills_gap_sufferer"; "insurance_pressured";
      "resource_constrained"; "overwhelmed_generalist"; "general_prospect"].
Proof.
  unfold assign_segment.
  repeat match goal with |- context [if ?b then _ else _] => destruct b end;
    cbn [In]; tauto.
Qed.

(** ** The scorer under the placeholder tech stack *)

Lemma pymin_one_ge (x c : Q) : c <= 1 -> c <= x -> c <= pymin x 1.0.
Proof.
  intros Hc Hx. unfold pymin. destruct (Qlt_bool 1.0 x); lra.
Qed.

Lemma pymin_one_mono (x y : Q) : x <= y -> pymin x 1.0 <= pymin y 1.0.
Proof.
  intros H. unfold pymin.
  destruct (Qlt_bool 1.0 x) eqn:Ex, (Qlt_bool 1.0 y) eqn:Ey;
    try apply Qlt_bool_true in Ex; try apply Qlt_bool_false in Ex;
    try apply Qlt_bool_true in Ey; try apply Qlt_bool_false in Ey; lra.
Qed.

Lemma dwell_at_least (now : Z) (d : string) (signals : list Signal) :
  0.7 <= calculate_dwell_score now d signals.
Proof.
  unfold calculate_dwell_score. apply pymin_one_ge; [lra|]. simpl.
  destruct (List.filter is_breach signals), (List.filter is_vacancy signals);
    repeat match goal with |- context [if ?b then _ else _] => destruct b end; lra.
Qed.

Lemma after_hours_values (clay_client : ClayTables) (d : string) (signals : list Signal) :
  calculate_after_hours_score clay_client d signals == 0.5 \/
  calculate_after_hours_score clay_client d signals == 0.7.
Proof.
  rewrite after_hours_empty. destruct (in_strings _ _); [right | left]; reflexivity.
Qed.

Lemma industry_multiplier_ge_one (key : string) : 1 <= industry_multipliers_get key.
Proof.
  unfold industry_multipliers_get.
  repeat match goal with |- context [if ?b then _ else _] => destruct b end; lra.
Qed.

Lemma breach_cost_at_least (clay_client : ClayTables) (d : string) (signals : list Signal) :
  0.3 <= calculate_breach_cost_score clay_client d signals.
Proof.
  unfold calculate_breach_cost_score. apply pymin_one_ge; [lra|].
  set (m := industry_multipliers_get _).
  assert (Hm : 1 <= m) by apply industry_multiplier_ge_one.
  repeat match goal with |- context [if ?b then _ else _] => destruct b end; nra.
Qed.

(** X5. Whatever the datastore holds, the scorer gives dwell_time at
    least 0.7 (the placeholder tech stack reports no tooling), after_hours
    0.5 or 0.7, breach_cost at least 0.3, and therefore a pain score of
    at least 35. *)
Theorem pain_score_floor (clay_client : ClayTables) (now : Z) (d : string) :
  let r := calculate_company_score clay_client now d in
  let s := individual_scores r in
  0.7 <= dwell_time s /\
  (after_hours s == 0.5 \/ after_hours s == 0.7) /\
  0.3 <= breach_cost s /\
  35 <= pain_score r.
Proof.
  intros r s.
  pose proof (dwell_at_least now d (query_pain_signals clay_client d)) as Hd.
  pose proof (after_hours_values clay_client d (query_pain_signals clay_client d)) as Ha.
  pose proof (breach_cost_at_least clay_client d (query_pain_signals clay_client d)) as Hb.
  pose proof (ScorerFacts.skills_gap_bounds d (query_pain_signals clay_client d)) as Hs.
  pose proof (ScorerFacts.insurance_bounds clay_client d (query_pain_signals clay_client d)) as Hi.
  assert (Hp : pain_score r == Spec.composite s) by apply ScorerFacts.total_score_eq.
  unfold Spec.composite in Hp.
  change (dwell_time s) with (calculate_dwell_score now d (query_pain_signals clay_client d)) in *.
  change (skills_gap s) with (calculate_skills_gap_score d (query_pain_signals clay_client d)) in *.
  change (after_hours s)
    with (calculate_after_hours_score clay_client d (query_pain_signals clay_client d)) in *.
  change (insurance s)
    with (calculate_insurance_score clay_client d (query_pain_signals clay_client d)) in *.
  change (breach_cost s)
    with (calculate_breach_cost_score clay_client d (query_pain_signals clay_client d)) in *.
  generalize dependent (pain_score r). clear r s. intros p Hp.
  split; [exact Hd|]. split; [exact Ha|]. split; [exact Hb|].
  destruct Ha as [Ha|Ha]; lra.
Qed.

(** X6. The segment that [calculate_company_score] assigns is never
    overwhelmed_generalist and never general_prospect: dwell_time is above
    0.6 for every company, so rule 4 answers before rules 5 and 6 are
    reached. *)
Theorem scored_segment_never_falls_through (clay_client : ClayTables) (now : Z) (d : string) :
  In (segment (calculate_company_score clay_client now d))
     ["post_breach_survivor"; "skills_gap_sufferer"; "insurance_pressured";
      "resource_constrained"].
Proof.
  unfold calculate_company_score. cbn [segment]. unfold assign_segment. cbn [dwell_time].
  pose proof (dwell_at_least now d (query_pain_signals clay_client d)) as Hd.
  assert (E : Qlt_bool 0.6 (calculate_dwell_score now d (query_pain_signals clay_client d)) = true)
    by (apply Qlt_bool_true; lra).
  rewrite E.
  repeat match goal with |- context [if ?b then _ else _] => destruct b end;
    cbn [In]; tauto.
Qed.

(** X7. The primary EDP of a scored company is never after_hours: its
    sub-score is at most 0.7, dwell_time is at least 0.7 and comes first
    in the order of the keys. *)
Theorem primary_edp_never_after_hours (clay_client : ClayTables) (now : Z) (d : string) :
  In (primary_edp (calculate_company_score clay_client now d))
     ["dwell_time"; "skills_gap"; "insurance"; "breach_cost"].
Proof.
  unfold calculate_company_score. cbn [primary_edp].
  pose proof (dwell_at_least now d (query_pain_signals clay_client d)) as Hd.
  pose proof (after_hours_values clay_client d (query_pain_signals clay_client d)) as Ha.
  unfold max_key, score_items.
  cbn [tl fold_left snd dwell_time skills_gap after_hours insurance breach_cost].
  set (dw := calculate_dwell_score _ _ _) in *.
  set (sk := calculate_skills_gap_score _ _).
  set (ah := calculate_after_hours_score _ _ _) in *.
  set (ins := calculate_insurance_score _ _ _).
  set (bc := calculate_breach_cost_score _ _ _).
  destruct (Qlt_bool dw sk) eqn:E1;
    [apply Qlt_bool_true in E1 | apply Qlt_bool_false in E1]; cbn [snd].
  - assert (E2 : Qlt_bool sk ah = false) by (apply Qlt_bool_false; destruct Ha; lra).
    rewrite E2. cbv iota. cbn [snd].
    destruct (Qlt_bool sk ins); cbn [snd];
      match goal with |- context [if ?b then _ else _] => destruct b end;
      cbn [fst In]; tauto.
  - assert (E2 : Qlt_bool dw ah = false) by (apply Qlt_bool_false; destruct Ha; lra).
    rewrite E2. cbv iota. cbn [snd].
    destruct (Qlt_bool dw ins); cbn [snd];
      match goal with |- context [if ?b then _ else _] => destruct b end;
      cbn [fst In]; tauto.
Qed.











(** ** More evidence never lowers a score *)

Lemma recency_band_mono (d d' : Z) :
  (d' <= d)%Z ->
  (if (d <? 30)%Z then 0 + 0.9
   else if (d <? 90)%Z then 0 + 0.7
   else if (d <? 180)%Z then 0 + 0.5 else 0 + 0.3)
  <= (if (d' <? 30)%Z then 0 + 0.9
      else if (d' <? 90)%Z then 0 + 0.7
      else if (d' <? 180)%Z then 0 + 0.5 else 0 + 0.3).
Proof.
  intros H.
  repeat match goal with
         | |- context [(?a <? ?b)%Z] => destruct (Z.ltb_spec a b)
         end; try lra; lia.
Qed.

Lemma recency_band_pos (d : Z) :
  0 <= (if (d <? 30)%Z then 0 + 0.9
        else if (d <? 90)%Z then 0 + 0.7
        else if (d <? 180)%Z then 0 + 0.5 else 0 + 0.3).
Proof.
  repeat match goal with |- context [if ?b then _ else _] => destruct b end; lra.
Qed.

Lemma filter_insert {A : Type} (p : A -> bool) (l1 l2 : list A) (x : A) :
  List.filter p (l1 ++ x :: l2)%list
  = (List.filter p l1 ++ (if p x then [x] else []) ++ List.filter p l2)%list.
Proof.
  rewrite List.filter_app. cbn [List.filter]. now destruct (p x).
Qed.

Lemma most_recent_insert (now : Z) (b0 : Signal) (rest : list Signal)
    (b0' : Signal) (rest' : list Signal) :
  (forall y, In y (b0 :: rest) -> In y (b0' :: rest')) ->
  (days_since now (py_max_by signal_date b0' rest')
   <= days_since now (py_max_by signal_date b0 rest))%Z.
Proof.
  intros Hsub. apply ScorerFacts.days_since_antitone.
  destruct (py_max_by_spec signal_date rest b0) as [Hin _].
  destruct (py_max_by_spec signal_date rest' b0') as [_ Hmax].
  apply Hmax, Hsub, Hin.
Qed.

Lemma dwell_mono (now : Z) (d : string) (l1 l2 : list Signal) (s : Signal) :
  calculate_dwell_score now d (l1 ++ l2)%list <= calculate_dwell_score now d (l1 ++ s :: l2)%list.
Proof.
  unfold calculate_dwell_score. apply pymin_one_mono.
  cbn [get_tech_stack has_mdr has_siem has_edr negb].
  assert (Hband :
    match List.filter is_breach (l1 ++ l2)%list with
    | [] => 0
    | s0 :: rest =>
        if (days_since now (py_max_by signal_date s0 rest) <? 30)%Z then 0 + 0.9
        else if (days_since now (py_max_by signal_date s0 rest) <? 90)%Z then 0 + 0.7
        else if (days_since now (py_max_by signal_date s0 rest) <? 180)%Z then 0 + 0.5
        else 0 + 0.3
    end
    <= match List.filter is_breach (l1 ++ s :: l2)%list with
       | [] => 0
       | s0 :: rest =>
           if (days_since now (py_max_by signal_date s0 rest) <? 30)%Z then 0 + 0.9
           else if (days_since now (py_max_by signal_date s0 rest) <? 90)%Z then 0 + 0.7
           else if (days_since now (py_max_by signal_date s0 rest) <? 180)%Z then 0 + 0.5
           else 0 + 0.3
       end).
  { destruct (List.filter is_breach (l1 ++ l2)%list) as [|b0 rest] eqn:E;
      destruct (List.filter is_breach (l1 ++ s :: l2)%list) as [|b0' rest'] eqn:E'.
    - lra.
    - apply recency_band_pos.
    - exfalso. assert (Hin : In b0 (List.filter is_breach (l1 ++ l2)%list)) by (rewrite E; now left).
      apply filter_In in Hin. destruct Hin as [Hin Hb].
      assert (Hin' : In b0 (List.filter is_breach (l1 ++ s :: l2)%list)).
      { apply filter_In. split; [|exact Hb].
        apply in_app_or in Hin. apply in_or_app.
        destruct Hin; [now left | right; now right]. }
      rewrite E' in Hin'. destruct Hin'.
    - apply recency_band_mono. apply most_recent_insert.
      intros y Hy. rewrite <- E in Hy. rewrite <- E'.
      apply filter_In in Hy. destruct Hy as [Hy Hb]. apply filter_In. split; [|exact Hb].
      apply in_app_or in Hy. apply in_or_app.
      destruct Hy; [now left | right; now right]. }
  rewrite (filter_insert is_vacancy).
  rewrite (List.filter_app is_vacancy l1 l2).
  destruct (List.filter is_vacancy l1) as [|v1 vs1]; cbn [app].
  - destruct (is_vacancy s); cbn [app];
      destruct (List.filter is_vacancy l2); lra.
  - lra.
Qed.

Lemma skills_gap_step_shift (score : Q) (v : Signal) :
  skills_gap_step score v == score + skills_gap_step 0 v.
Proof.
  unfold skills_gap_step.
  repeat match goal with |- context [if ?b then _ else _] => destruct b end; ring.
Qed.

Lemma skills_gap_loop_mono (vs : list Signal) (a b : Q) :
  a <= b -> fold_left skills_gap_step vs a <= fold_left skills_gap_step vs b.
Proof.
  revert a b. induction vs as [|v vs IH]; intros a b H; cbn [fold_left]; [exact H|].
  apply IH. rewrite (skills_gap_step_shift a), (skills_gap_step_shift b). lra.
Qed.

Lemma skills_gap_mono (d : string) (l1 l2 : list Signal) (s : Signal) :
  calculate_skills_gap_score d (l1 ++ l2)%list <= calculate_skills_gap_score d (l1 ++ s :: l2)%list.
Proof.
  unfold calculate_skills_gap_score. apply pymin_one_mono.
  rewrite filter_insert, List.filter_app, !fold_left_app.
  apply skills_gap_loop_mono.
  destruct (is_vacancy s); cbn [fold_left]; [|lra].
  rewrite skills_gap_step_shift.
  pose proof (ScorerFacts.skills_gap_step_nonneg 0 s ltac:(lra)). lra.
Qed.

Lemma insurance_mono (clay_client : ClayTables) (d : string) (l1 l2 : list Signal)
    (s : Signal) :
  calculate_insurance_score clay_client d (l1 ++ l2)%list
  <= calculate_insurance_score clay_client d (l1 ++ s :: l2)%list.
Proof.
  unfold calculate_insurance_score. apply pymin_one_mono.
  rewrite !filter_insert, !List.filter_app.
  destruct (List.filter is_breach l1), (is_breach s), (List.filter is_breach l2),
    (List.filter is_compliance l1), (is_compliance s), (List.filter is_compliance l2),
    (in_strings _ _); cbn [app]; lra.
Qed.

(** X10. More evidence never lowers a score.  When one signal is added
    to the signals of a company, anywhere in the list, and the company
    row is the same, dwell_time, skills_gap and insurance do not
    decrease, after_hours and breach_cost do not change, and the pain
    score does not decrease. *)
Theorem more_evidence_never_lowers (clay_client clay_client' : ClayTables) (now : Z)
    (d : string) (l1 l2 : list Signal) (s : Signal) :
  query_pain_signals clay_client d = (l1 ++ l2)%list ->
  query_pain_signals clay_client' d = (l1 ++ s :: l2)%list ->
  query_company_universe clay_client d = query_company_universe clay_client' d ->
  let r := calculate_company_score clay_client now d in
  let r' := calculate_company_score clay_client' now d in
  dwell_time (individual_scores r) <= dwell_time (individual_scores r') /\
  skills_gap (individual_scores r) <= skills_gap (individual_scores r') /\
  after_hours (individual_scores r) == after_hours (individual_scores r') /\
  insurance (individual_scores r) <= insurance (individual_scores r') /\
  breach_cost (individual_scores r) == breach_cost (individual_scores r') /\
  pain_score r <= pain_score r'.
Proof.
  intros Hs Hs' Hc r r'.
  assert (Hp : pain_score r == Spec.composite (individual_scores r))
    by apply ScorerFacts.total_score_eq.
  assert (Hp' : pain_score r' == Spec.composite (individual_scores r'))
    by apply ScorerFacts.total_score_eq.
  assert (Hi : get_company_info clay_client d = get_company_info clay_client' d)
    by (unfold get_company_info; now rewrite Hc).
  assert (Hdw : dwell_time (individual_scores r) <= dwell_time (individual_scores r')).
  { unfold r, r', calculate_company_score. cbn [individual_scores dwell_time].
    rewrite Hs, Hs'. apply dwell_mono. }
  assert (Hsk : skills_gap (individual_scores r) <= skills_gap (individual_scores r')).
  { unfold r, r', calculate_company_score. cbn [individual_scores skills_gap].
    rewrite Hs, Hs'. apply skills_gap_mono. }
  assert (Hah : after_hours (individual_scores r) == after_hours (individual_scores r')).
  { unfold r, r', calculate_company_score. cbn [individual_scores after_hours].
    unfold calculate_after_hours_score. rewrite Hi. reflexivity. }
  assert (Hin : insurance (individual_scores r) <= insurance (individual_scores r')).
  { unfold r, r', calculate_company_score. cbn [individual_scores insurance].
    rewrite Hs, Hs'.
    apply Qle_trans with (calculate_insurance_score clay_client d (l1 ++ s :: l2)%list).
    - apply insurance_mono.
    - unfold calculate_insurance_score. rewrite Hi. apply Qle_refl. }
  assert (Hbc : breach_cost (individual_scores r) == breach_cost (individual_scores r')).
  { unfold r, r', calculate_company_score. cbn [individual_scores breach_cost].
    unfold calculate_breach_cost_score. rewrite Hi. reflexivity. }
  repeat (split; [assumption|]).
  unfold Spec.composite in Hp, Hp'. lra.
Qed.

(** A long-open executive vacancy added to an old breach *)
Lemma more_evidence_never_lowers_witness :
  pain_score (calculate_company_score
                (Samples.acme_tables [Samples.old_breach_signal]) Samples.today "acme.com")
  <= pain_score (calculate_company_score
                   (Samples.acme_tables [Samples.old_breach_signal; Samples.executive_vacancy])
                   Samples.today "acme.com").
Proof.
  exact (proj2 (proj2 (proj2 (proj2 (proj2
    (more_evidence_never_lowers
       (Samples.acme_tables [Samples.old_breach_signal])
       (Samples.acme_tables [Samples.old_breach_signal; Samples.executive_vacancy])
       Samples.today "acme.com" [Samples.old_breach_signal] [] Samples.executive_vacancy
       eq_refl eq_refl eq_refl)))))).
Defined.

(** ** The campaign generator *)

(** X11. [select_template] always answers a key of the templates, so the
    lookup that follows cannot fail; every primary EDP other than
    skills_gap, after_hours and insurance, the override's
    active_ransomware among them, gets the dwell_time template, and the
    dark_web template is never selected. *)
Theorem select_template_total (primary_edp : string) :
  In (Campaigns.select_template primary_edp) Campaigns.template_keys /\
  Campaigns.select_template primary_edp <> "dark_web" /\
  (~ In primary_edp ["skills_gap"; "after_hours"; "insurance"] ->
   Campaigns.select_template primary_edp = "dwell_time") /\
  Campaigns.select_template Orchestrator.ACTIVE_RANSOMWARE = "dwell_time".
Proof.
  unfold Campaigns.select_template, Campaigns.template_keys.
  split; [|split; [|split; [|reflexivity]]].
  - repeat match goal with |- context [if ?b then _ else _] => destruct b end;
      cbn [In]; tauto.
  - repeat match goal with |- context [if ?b then _ else _] => destruct b end;
      discriminate.
  - intros Hn.
    destruct (String.eqb_spec primary_edp "dwell_time") as [E0|E0]; [reflexivity|].
    destruct (String.eqb_spec primary_edp "skills_gap") as [E1|E1].
    { exfalso. apply Hn. rewrite E1. cbn [In]. tauto. }
    destruct (String.eqb_spec primary_edp "after_hours") as [E2|E2].
    { exfalso. apply Hn. rewrite E2. cbn [In]. tauto. }
    destruct (String.eqb_spec primary_edp "insurance") as [E3|E3].
    { exfalso. apply Hn. rewrite E3. cbn [In]. tauto. }
    destruct (String.eqb primary_edp "breach_cost"); reflexivity.
Qed.

Lemma weekday_range (dt : Campaigns.DateTime) :
  (0 <= Campaigns.weekday dt < 7)%Z.
Proof. unfold Campaigns.weekday. apply Z.mod_pos_bound. lia. Qed.

Lemma weekday_add_days (dt : Campaigns.DateTime) (n : Z) :
  Campaigns.weekday (Campaigns.add_days dt n) = ((Campaigns.weekday dt + n) mod 7)%Z.
Proof.
  unfold Campaigns.weekday, Campaigns.add_days. cbn [Campaigns.day].
  now rewrite Zplus_mod_idemp_l.
Qed.

Lemma find_business_day_three (now : Campaigns.DateTime) :
  exists k,
    (1 <= k <= 3)%Z /\
    Campaigns.find_business_day 3 now 1
    = Some (Campaigns.at_10am (Campaigns.add_days now k)) /\
    (Campaigns.weekday (Campaigns.add_days now k) < 5)%Z.
Proof.
  pose proof (weekday_range now) as Hw.
  cbn [Campaigns.find_business_day]. rewrite !weekday_add_days.
  set (w := Campaigns.weekday now) in *.
  assert (Hcases : (w = 0 \/ w = 1 \/ w = 2 \/ w = 3 \/ w = 4 \/ w = 5 \/ w = 6)%Z) by lia.
  destruct Hcases as [H|[H|[H|[H|[H|[H|H]]]]]].
  - exists 1%Z. rewrite weekday_add_days. fold w. rewrite H. repeat split; try lia; reflexivity.
  - exists 1%Z. rewrite weekday_add_days. fold w. rewrite H. repeat split; try lia; reflexivity.
  - exists 1%Z. rewrite weekday_add_days. fold w. rewrite H. repeat split; try lia; reflexivity.
  - exists 1%Z. rewrite weekday_add_days. fold w. rewrite H. repeat split; try lia; reflexivity.
  - exists 3%Z. rewrite weekday_add_days. fold w. rewrite H. repeat split; try lia; reflexivity.
  - exists 2%Z. rewrite weekday_add_days. fold w. rewrite H. repeat split; try lia; reflexivity.
  - exists 1%Z. rewrite weekday_add_days. fold w. rewrite H. repeat split; try lia; reflexivity.
Qed.

Lemma find_business_day_fuel (fuel : nat) (now : Campaigns.DateTime) (k : Z) (dt : Campaigns.DateTime) :
  Campaigns.find_business_day fuel now k = Some dt ->
  Campaigns.find_business_day (S fuel) now k = Some dt.
Proof.
  revert k. induction fuel as [|fuel IH]; intros k H; [discriminate|].
  cbn [Campaigns.find_business_day] in *.
  destruct (Campaigns.weekday (Campaigns.add_days now k) <? 5)%Z; [exact H|].
  apply IH in H. exact H.
Qed.

(** X12. [next_business_day_10am] leaves its [while True] loop after at
    most three rounds.  On a well-formed clock reading its answer is a
    Monday-to-Friday day at 10:00:00, strictly later than now and at
    most three days ahead. *)
Theorem next_business_day_found (fuel : nat) (now : Campaigns.DateTime) :
  Campaigns.valid now -> (3 <= fuel)%nat ->
  exists dt,
    Campaigns.next_business_day_10am fuel now = Some dt /\
    (Campaigns.weekday dt < 5)%Z /\
    Campaigns.hour dt = 10%Z /\ Campaigns.minute dt = 0%Z /\ Campaigns.second dt = 0%Z /\
    (Campaigns.instant now < Campaigns.instant dt)%Z /\
    (Campaigns.day now <= Campaigns.day dt <= Campaigns.day now + 3)%Z.
Proof.
  intros (Hh & Hm & Hs & Hu) Hfuel.
  unfold Campaigns.next_business_day_10am.
  destruct ((Campaigns.weekday now <? 5)%Z && (Campaigns.hour now <? 10)%Z) eqn:E.
  - apply andb_true_iff in E. destruct E as [E1 E2].
    apply Z.ltb_lt in E1, E2.
    exists (Campaigns.at_10am now). split; [reflexivity|].
    unfold Campaigns.instant, Campaigns.time_of_day, Campaigns.weekday in *.
    cbn [Campaigns.at_10am Campaigns.day Campaigns.hour Campaigns.minute
         Campaigns.second Campaigns.microsecond].
    repeat split; lia.
  - destruct (find_business_day_three now) as (k & Hk & Hfind & Hwd).
    exists (Campaigns.at_10am (Campaigns.add_days now k)). split.
    + clear - Hfuel Hfind. induction Hfuel as [|n Hn IH]; [exact Hfind|].
      now apply find_business_day_fuel.
    + unfold Campaigns.instant, Campaigns.time_of_day, Campaigns.weekday in *.
      cbn [Campaigns.at_10am Campaigns.add_days Campaigns.day Campaigns.hour
           Campaigns.minute Campaigns.second Campaigns.microsecond] in *.
      repeat split; lia.
Qed.

(** A Saturday afternoon *)
Lemma next_business_day_found_witness :
  exists dt,
    Campaigns.next_business_day_10am 3
      {| Campaigns.day := 5; Campaigns.hour := 15; Campaigns.minute := 30;
         Campaigns.second := 0; Campaigns.microsecond := 0 |} = Some dt /\
    Campaigns.day dt = 7%Z /\ Campaigns.hour dt = 10%Z.
Proof.
  destruct (next_business_day_found 3
              {| Campaigns.day := 5; Campaigns.hour := 15; Campaigns.minute := 30;
                 Campaigns.second := 0; Campaigns.microsecond := 0 |})
    as (dt & Hdt & _ & Hh & _).
  - unfold Campaigns.valid. cbn. lia.
  - lia.
  - exists dt. split; [exact Hdt|]. split; [|exact Hh].
    vm_compute in Hdt. injection Hdt as <-. reflexivity.
Defined.

Lemma insert_by_perm (key : Campaigns.Contact -> nat) (c : Campaigns.Contact)
    (l : list Campaigns.Contact) :
  Permutation (c :: l) (Campaigns.insert_by key c l).
Proof.
  induction l as [|x l IH]; cbn [Campaigns.insert_by]; [reflexivity|].
  destruct (key c <=? key x)%nat; [reflexivity|].
  rewrite perm_swap. now apply perm_skip.
Qed.

Lemma sort_by_perm (key : Campaigns.Contact -> nat) (l : list Campaigns.Contact) :
  Permutation l (Campaigns.sort_by key l).
Proof.
  induction l as [|x l IH]; cbn; [reflexivity|].
  rewrite <- insert_by_perm. now apply perm_skip.
Qed.

Lemma insert_by_sorted (key : Campaigns.Contact -> nat) (c : Campaigns.Contact)
    (l : list Campaigns.Contact) :
  StronglySorted (fun a b => (key a <= key b)%nat) l ->
  StronglySorted (fun a b => (key a <= key b)%nat) (Campaigns.insert_by key c l).
Proof.
  induction 1 as [|x l Hs IH Hx]; cbn [Campaigns.insert_by].
  - repeat constructor.
  - destruct (Nat.leb_spec (key c) (key x)) as [Hle|Hgt].
    + constructor; [now constructor|].
      constructor; [exact Hle|].
      rewrite List.Forall_forall in Hx |- *. intros a Ha.
      specialize (Hx a Ha). cbn in Hx. lia.
    + constructor; [exact IH|].
      rewrite List.Forall_forall in Hx |- *. intros a Ha.
      apply (Permutation_in _ (Permutation_sym (insert_by_perm key c l))) in Ha.
      destruct Ha as [<-|Ha]; [lia | exact (Hx a Ha)].
Qed.

Lemma sort_by_sorted (key : Campaigns.Contact -> nat) (l : list Campaigns.Contact) :
  StronglySorted (fun a b => (key a <= key b)%nat) (Campaigns.sort_by key l).
Proof.
  induction l as [|x l IH]; cbn; [constructor|]. now apply insert_by_sorted.
Qed.

(** X13. [find_contacts] never answers an empty list: without rows it
    answers the one placeholder contact security@domain.  Otherwise it
    answers a rearrangement of the rows in ascending title score (CISO,
    CTO, IT Director, Security, others), so that the campaign, which
    writes to the first three, writes to at least one and at most three
    contacts, none of which has a worse title score than a contact left
    out. *)
Theorem contacts_by_title (d : string) (rows : list Campaigns.Contact) :
  let contacts := Campaigns.find_contacts d rows in
  let chosen := Campaigns.campaign_contacts d rows in
  (rows = [] ->
   contacts = [ {| Campaigns.email := "security@" +:+ d;
                   Campaigns.name := "Security Team";
                   Campaigns.title := "Security";
                   Campaigns.first_name := "Security" |} ]) /\
  (rows <> [] -> Permutation rows contacts) /\
  StronglySorted
    (fun a b => (Campaigns.title_score a <= Campaigns.title_score b)%nat) contacts /\
  (1 <= List.length chosen <= 3)%nat /\
  (forall a b, In a chosen -> In b (skipn 3 contacts) ->
     (Campaigns.title_score a <= Campaigns.title_score b)%nat).
Proof.
  intros contacts chosen.
  assert (Hsorted : StronglySorted
            (fun a b => (Campaigns.title_score a <= Campaigns.title_score b)%nat) contacts)
    by apply sort_by_sorted.
  split; [intros ->; reflexivity|].
  split; [intros Hne; destruct rows; [congruence | apply sort_by_perm]|].
  split; [exact Hsorted|]. split.
  - unfold chosen, Campaigns.campaign_contacts. fold contacts.
    assert (Hlen : (1 <= List.length contacts)%nat).
    { unfold contacts, Campaigns.find_contacts.
      rewrite <- (Permutation_length (sort_by_perm _ _)).
      destruct rows; cbn [List.length]; lia. }
    rewrite length_firstn. lia.
  - unfold chosen, Campaigns.campaign_contacts. fold contacts.
    intros a b Ha Hb.
    rewrite <- (firstn_skipn 3 contacts) in Hsorted.
    revert Ha Hb Hsorted.
    generalize (firstn 3 contacts) (skipn 3 contacts). intros l1 l2 Ha Hb.
    induction l1 as [|x l1 IH]; [destruct Ha|].
    cbn [app]. intros Hs. inversion Hs as [|? ? Hs' Hall]; subst.
    destruct Ha as [<-|Ha]; [|now apply IH].
    rewrite List.Forall_forall in Hall. apply Hall. apply in_or_app. now right.
Qed.
